(** * build_multi_platform.py: the multi-platform build orchestrator

    A shallow embedding of [src/build_multi_platform.py].  The script only
    orchestrates external effects (printing, creating directories, spawning
    the container runtime, listing directories), so the embedding is a small
    exception-and-history monad run against an environment that answers every
    effect.  The environment sees the whole history of earlier effects, so the
    same command can be answered differently at different times.

    Modelling conventions:
    - a [pathlib.Path] is the string [str(path)], in the normal form
      [pathlib] keeps (no trailing slash but for a root, [.] for the empty
      path); the paths of the command line are given in that form;
      [a / b] is [path_join];
    - a printed line is a [message] constructor carrying the interpolated
      values of the f-string, not its rendered text;
    - standard output is taken to be writable, with an encoding fixed for
      the run; a line that carries one of the markers U+2705, U+274C,
      U+26A0 (lines 126, 132, 134, 139, 174) raises [UnicodeEncodeError]
      and writes nothing when that encoding lacks them, as a legacy
      encoding does ([print_marked]);
      the status lines of line 212 repeat, for each recorded result, the
      marker that the build which recorded it has already printed, and are
      modelled, like the plain lines, as returning ([print]);
    - the other fallible effects are the file-system calls ([mkdir],
      [glob], [iterdir], [is_dir]) and the two process spawns;
    - exceptions are the [Exception] subclasses those calls raise;
      [SystemExit] is not one of them and is a separate outcome;
    - [argparse] is modelled after tokenisation: the command line holds
      only the four options of lines 145-166, and the model records which
      of them were given and with which values; [Path.cwd()] (line 161) is
      taken to return. *)

From Stdlib Require Import String Ascii List ZArith Bool Arith Lia Permutation.
Import ListNotations.
Open Scope string_scope.

(** ** Data model *)

(** An entry of [PLATFORM_CONFIGS] (lines 15-56). *)
Record PlatformConfig := mkConfig {
  image : string;
  system_name : string;
  setup_commands : list string
}.

(** The [dict] literal [PLATFORM_CONFIGS], in its order of definition. *)
Definition PLATFORM_CONFIGS : list (string * PlatformConfig) :=
  [ ("ubuntu20.04",
     mkConfig "ubuntu:20.04" "ubuntu20.04"
       [ "apt-get update";
         "apt-get install -y python3 python3-pip sudo wget curl git build-essential";
         "ln -fs /usr/share/zoneinfo/UTC /etc/localtime";
         "DEBIAN_FRONTEND=noninteractive apt-get install -y tzdata" ]);
    ("ubuntu22.04",
     mkConfig "ubuntu:22.04" "ubuntu22.04"
       [ "apt-get update";
         "apt-get install -y python3 python3-pip sudo wget curl git build-essential";
         "ln -fs /usr/share/zoneinfo/UTC /etc/localtime";
         "DEBIAN_FRONTEND=noninteractive apt-get install -y tzdata" ]);
    ("manylinux_2014",
     mkConfig "quay.io/pypa/manylinux_2014_x86_64" "manylinux_2014"
       [ "yum update -y";
         "yum install -y python3 python3-pip sudo wget curl git";
         "yum groupinstall -y 'Development Tools'";
         "if ! command -v python3 &> /dev/null; then ln -s /usr/bin/python /usr/bin/python3; fi" ]);
    ("manylinux_2_24",
     mkConfig "quay.io/pypa/manylinux_2_24_x86_64" "manylinux_2_24"
       [ "yum update -y";
         "yum install -y python3 python3-pip sudo wget curl git";
         "yum groupinstall -y 'Development Tools'" ]) ].

(** [PLATFORM_CONFIGS.keys()] *)
Definition keys {V : Type} (d : list (string * V)) : list string := map fst d.

(** [d[k]], [None] standing for [KeyError]. *)
Fixpoint dict_get {V : Type} (d : list (string * V)) (k : string) : option V :=
  match d with
  | [] => None
  | (k', v) :: d' => if String.eqb k' k then Some v else dict_get d' k
  end.

(** [d[k] = v] on an insertion-ordered [dict]: an existing key keeps its
    position and takes the new value, a new key goes last. *)
Fixpoint dict_set {V : Type} (d : list (string * V)) (k : string) (v : V)
  : list (string * V) :=
  match d with
  | [] => [(k, v)]
  | (k', v') :: d' =>
      if String.eqb k' k then (k', v) :: d' else (k', v') :: dict_set d' k v
  end.

(** [x in xs] for a list of strings. *)
Definition str_in (x : string) (xs : list string) : bool :=
  existsb (String.eqb x) xs.

Definition path := string.

(** The string ends with a slash: as a path in normal form, it is a root. *)
Fixpoint ends_with_slash (s : string) : bool :=
  match s with
  | EmptyString => false
  | String c EmptyString => Ascii.eqb c "/"%char
  | String _ s' => ends_with_slash s'
  end.

(** [a / b] for a relative [b] and an [a] in normal form: [.] is dropped
    and a root takes no further slash. *)
Definition path_join (a : path) (b : string) : path :=
  if String.eqb a "." then b
  else if ends_with_slash a then a ++ b
  else a ++ "/" ++ b.

(** The one-character string holding a double quote. *)
Definition dquote : string := String "034"%char EmptyString.

(** ** Exceptions, messages and events *)

Inductive exn : Type :=
| CalledProcessError (returncode : Z)
| FileNotFoundError
| PermissionError
| OSError
| UnicodeEncodeError
| KeyError (key : string).

(** The lines the script prints, by source line. *)
Inductive message : Type :=
| MsgRunning (cmd : string)                    (* 61 *)
| MsgBuildingFor (platform : string)           (* 70 *)
| MsgBuilt (platform : string)                 (* 126 *)
| MsgArtifacts (names : list string)           (* 130 *)
| MsgNoArtifacts                               (* 132 *)
| MsgBuildFailed (platform : string)           (* 134 *)
| MsgBuildError (platform : string) (e : exn)  (* 139 *)
| MsgUsageError                                (* argparse, on stderr *)
| MsgDockerUnavailable                         (* 174 *)
| MsgPlatforms (platforms : list string)       (* 183 *)
| MsgWorkspace (workspace : path)              (* 184 *)
| MsgOutputDir (output_dir : path)             (* 185 *)
| MsgDryRunHeader                              (* 188 *)
| MsgRecipePlatform (platform : string)        (* 191 *)
| MsgRecipeImage (img : string)                (* 192 *)
| MsgRecipeSystem (name : string)              (* 193 *)
| MsgRecipeSetup (cmds : list string)          (* 194 *)
| MsgSummaryHeader                             (* 208 *)
| MsgStatus (platform : string) (success : bool) (* 212 *)
| MsgTotal (successful total : nat)            (* 216 *)
| MsgSavedTo (output_dir : path)               (* 219 *)
| MsgDirArtifacts (dir : string) (names : list string). (* 225 *)

(** What the process asks of the outside world, in order. *)
Inductive event : Type :=
| EvPrint (m : message)
| EvMkdir (p : path)                  (* Path.mkdir(parents=True, exist_ok=True) *)
| EvExec (argv : list string)         (* subprocess.run(argv) *)
| EvShell (cmd : string)              (* subprocess.run(cmd, shell=True) *)
| EvGlob (dir : path) (pattern : string)
| EvIterdir (dir : path)
| EvIsDir (p : path).

Definition history := list event.

(** The outside world.  Every answer may depend on all earlier events.
    A spawn answers with the return code of the process or with the
    exception raised while spawning it; [glob] and [iterdir] answer with the
    names ([Path.name]) of the entries found. *)
Record Env := mkEnv {
  env_exec : history -> list string -> exn + Z;
  env_shell : history -> string -> exn + Z;
  env_mkdir : history -> path -> exn + unit;
  env_glob : history -> path -> string -> exn + list string;
  env_iterdir : history -> path -> exn + list string;
  env_is_dir : history -> path -> exn + bool;
  env_cwd : path;                       (* Path.cwd() *)
  env_stdout_encodes : bool             (* sys.stdout.encoding has the markers *)
}.

(** ** The monad: history passing with exceptions and [sys.exit] *)

Inductive outcome (A : Type) : Type :=
| Val (a : A)
| Raise (e : exn)
| SysExit (code : Z).
Arguments Val {A} a.
Arguments Raise {A} e.
Arguments SysExit {A} code.

Definition M (A : Type) : Type := history -> outcome A * history.

Definition ret {A} (a : A) : M A := fun h => (Val a, h).

Definition bind {A B} (c : M A) (k : A -> M B) : M B :=
  fun h =>
    match c h with
    | (Val a, h') => k a h'
    | (Raise e, h') => (Raise e, h')
    | (SysExit n, h') => (SysExit n, h')
    end.

Notation "x <- c ;; k" := (bind c (fun x => k))
  (at level 61, c at next level, right associativity).
Notation "c ;; k" := (bind c (fun _ => k))
  (at level 61, right associativity).

Definition raise {A} (e : exn) : M A := fun h => (Raise e, h).

(** [sys.exit(code)] *)
Definition sys_exit {A} (code : Z) : M A := fun h => (SysExit code, h).

(** [try: body except <caught>: handler].  [SystemExit] passes through. *)
Definition try_except {A} (body : M A) (caught : exn -> bool)
    (handler : exn -> M A) : M A :=
  fun h =>
    match body h with
    | (Raise e, h') => if caught e then handler e h' else (Raise e, h')
    | r => r
    end.

(** An effect answered by the environment: the request is logged, the
    answer is a value or a raised exception. *)
Definition ask {A} (answer : history -> exn + A) (e : event) : M A :=
  fun h =>
    match answer h with
    | inr a => (Val a, (h ++ [e])%list)
    | inl x => (Raise x, (h ++ [e])%list)
    end.

(** The exit status the operating system sees: 0 when [main] returns, the
    argument of [sys.exit], 1 after an uncaught exception. *)
Definition exit_code {A} (o : outcome A) : Z :=
  match o with
  | Val _ => 0%Z
  | SysExit n => n
  | Raise _ => 1%Z
  end.

(** The platforms whose build was started: one per line-70 banner. *)
Fixpoint attempted (h : history) : list string :=
  match h with
  | [] => []
  | EvPrint (MsgBuildingFor p) :: h' => p :: attempted h'
  | _ :: h' => attempted h'
  end.

Definition is_mkdir (e : event) : bool :=
  match e with EvMkdir _ => true | _ => false end.

Definition is_shell (e : event) : bool :=
  match e with EvShell _ => true | _ => false end.

Definition is_exec (e : event) : bool :=
  match e with EvExec _ => true | _ => false end.

Definition is_recipe (e : event) : bool :=
  match e with
  | EvPrint (MsgRecipePlatform _) | EvPrint (MsgRecipeImage _)
  | EvPrint (MsgRecipeSystem _) | EvPrint (MsgRecipeSetup _) => true
  | _ => false
  end.

(** The version query of line 172. *)
Definition probe_argv : list string := ["docker"; "--version"].

(** ** The program *)

Section Program.

Variable env : Env.

Definition print (m : message) : M unit :=
  fun h => (Val tt, (h ++ [EvPrint m])%list).

(** [print] of a line that carries a marker. *)
Definition print_marked (m : message) : M unit :=
  fun h =>
    if env_stdout_encodes env then (Val tt, (h ++ [EvPrint m])%list)
    else (Raise UnicodeEncodeError, h).

Definition mkdir (p : path) : M unit :=
  ask (fun h => env_mkdir env h p) (EvMkdir p).

Definition glob (dir : path) (pattern : string) : M (list string) :=
  ask (fun h => env_glob env h dir pattern) (EvGlob dir pattern).

Definition iterdir (dir : path) : M (list string) :=
  ask (fun h => env_iterdir env h dir) (EvIterdir dir).

Definition is_dir (p : path) : M bool :=
  ask (fun h => env_is_dir env h p) (EvIsDir p).

(** [subprocess.run(argv, check=True, capture_output=True)] *)
Definition subprocess_run_check (argv : list string) : M Z :=
  rc <- ask (fun h => env_exec env h argv) (EvExec argv) ;;
  if (rc =? 0)%Z then ret rc else raise (CalledProcessError rc).

(** [run_command] (lines 59-65) *)
Definition run_command (cmd : string) (check : bool) : M Z :=
  print (MsgRunning cmd) ;;
  returncode <- ask (fun h => env_shell env h cmd) (EvShell cmd) ;;
  if check && negb (returncode =? 0)%Z
  then raise (CalledProcessError returncode)
  else ret returncode.

(** [except Exception] *)
Definition any_exception (e : exn) : bool := true.

(** The command line of the container run: the list [docker_cmd] of lines
    81-94, the script of lines 97-117 appended to it (line 118), and the
    string [cmd_str] of line 122, whose last element is double-quoted. *)
Definition docker_command (config : PlatformConfig)
    (workspace_dir platform_output_dir : path) : string :=
  let image := image config in
  let system_name := system_name config in
  let setup_commands := setup_commands config in
  let docker_cmd :=
    [ "docker"; "run"; "--rm"; "-it"; "--privileged";
      "--volume=" ++ workspace_dir ++ ":/workspace";
      "--volume=" ++ platform_output_dir ++ ":/output_host";
      "--workdir=/workspace";
      "--env=SYSTEM_NAME=" ++ system_name;
      image; "bash"; "-c" ] in
  let script_content :=
    (setup_commands ++
     [ "echo 'System setup completed'";
       "echo 'Building for system: $SYSTEM_NAME'";
       "echo 'Architecture: $(uname -m)'";
       "python3 pack.py build";
       "echo 'Build completed, copying artifacts...'";
       "cp -v output_*.tar.gz /output_host/ 2>/dev/null || echo 'No tar.gz files to copy'";
       "cp -rv output_logs /output_host/ 2>/dev/null || echo 'No output_logs to copy'";
       "ls -la /output_host/" ])%list in
  let full_script := String.concat " && " script_content in
  let docker_cmd := (docker_cmd ++ [full_script])%list in
  String.concat " " (removelast docker_cmd)
  ++ " " ++ dquote ++ last docker_cmd "" ++ dquote.

(** [build_for_platform] (lines 68-140) *)
Definition build_for_platform (platform_name : string) (config : PlatformConfig)
    (workspace_dir output_dir : path) : M bool :=
  print (MsgBuildingFor platform_name) ;;
  let platform_output_dir := path_join output_dir platform_name in
  mkdir platform_output_dir ;;
  try_except
    (let cmd_str := docker_command config workspace_dir platform_output_dir in
     result <- run_command cmd_str false ;;
     (if (result =? 0)%Z then
        print_marked (MsgBuilt platform_name) ;;
        artifacts <- glob platform_output_dir "*.tar.gz" ;;
        match artifacts with
        | _ :: _ => print (MsgArtifacts artifacts)
        | [] => print_marked MsgNoArtifacts
        end
      else print_marked (MsgBuildFailed platform_name)) ;;
     ret (result =? 0)%Z)
    any_exception
    (fun e => print_marked (MsgBuildError platform_name e) ;; ret false).

(** *** Command line (lines 144-168) *)

(** The tokenised command line: the values that follow [--platforms], the
    value of [--output-dir] and of [--workspace], each when the option is
    present, and whether [--dry-run] is present. *)
Record raw_args := mkRaw {
  raw_platforms : option (list string);
  raw_output_dir : option path;
  raw_workspace : option path;
  raw_dry_run : bool
}.

(** The namespace returned by [parser.parse_args()]. *)
Record Namespace := mkArgs {
  args_platforms : list string;
  args_output_dir : path;
  args_workspace : path;
  args_dry_run : bool
}.

(** [choices=list(PLATFORM_CONFIGS.keys()) + ["all"]] *)
Definition choices : list string := (keys PLATFORM_CONFIGS ++ ["all"])%list.

(** [parser.error]: usage on stderr, exit status 2. *)
Definition usage_error {A} : M A := print MsgUsageError ;; sys_exit 2%Z.

(** [--platforms] with [nargs="+"], [choices] and [default=["all"]]. *)
Definition parse_platforms (given : option (list string)) : M (list string) :=
  match given with
  | None => ret ["all"]
  | Some [] => usage_error
  | Some values =>
      if forallb (fun v => str_in v choices) values
      then ret values else usage_error
  end.

Definition parse_args (raw : raw_args) : M Namespace :=
  platforms <- parse_platforms (raw_platforms raw) ;;
  ret (mkArgs platforms
         (match raw_output_dir raw with
          | Some p => p | None => "multi_platform_builds" end)
         (match raw_workspace raw with
          | Some p => p | None => env_cwd env end)
         (raw_dry_run raw)).

(** *** [main] (lines 143-229) *)

(** [except (subprocess.CalledProcessError, FileNotFoundError)] *)
Definition probe_caught (e : exn) : bool :=
  match e with
  | CalledProcessError _ | FileNotFoundError => true
  | _ => false
  end.

(** Lines 170-175. *)
Definition check_docker : M unit :=
  try_except
    (subprocess_run_check probe_argv ;; ret tt)
    probe_caught
    (fun _ => print_marked MsgDockerUnavailable ;; sys_exit 1%Z).

(** Lines 178-181. *)
Definition select_platforms (platforms : list string) : list string :=
  if str_in "all" platforms then keys PLATFORM_CONFIGS else platforms.

(** [PLATFORM_CONFIGS[platform]] *)
Definition config_of (platform : string) : M PlatformConfig :=
  match dict_get PLATFORM_CONFIGS platform with
  | Some config => ret config
  | None => raise (KeyError platform)
  end.

(** The loop of lines 189-194. *)
Fixpoint dry_run_loop (platforms : list string) : M unit :=
  match platforms with
  | [] => ret tt
  | platform :: rest =>
      config <- config_of platform ;;
      print (MsgRecipePlatform platform) ;;
      print (MsgRecipeImage (image config)) ;;
      print (MsgRecipeSystem (system_name config)) ;;
      print (MsgRecipeSetup (setup_commands config)) ;;
      dry_run_loop rest
  end.

(** The loop of lines 202-205, from the [results] built so far. *)
Fixpoint build_loop (args : Namespace) (platforms : list string)
    (results : list (string * bool)) : M (list (string * bool)) :=
  match platforms with
  | [] => ret results
  | platform :: rest =>
      config <- config_of platform ;;
      success <- build_for_platform platform config
                   (args_workspace args) (args_output_dir args) ;;
      build_loop args rest (dict_set results platform success)
  end.

(** The loop of lines 210-214 over [results.items()]. *)
Fixpoint summary_loop (items : list (string * bool)) (successful : nat)
  : M nat :=
  match items with
  | [] => ret successful
  | (platform, success) :: rest =>
      print (MsgStatus platform success) ;;
      summary_loop rest (if success then successful + 1 else successful)
  end.

(** The loop of lines 221-225 over the entries of the output directory. *)
Fixpoint artifacts_loop (output_dir : path) (names : list string) : M unit :=
  match names with
  | [] => ret tt
  | name :: rest =>
      let platform_dir := path_join output_dir name in
      d <- is_dir platform_dir ;;
      (if d then
         artifacts <- glob platform_dir "*.tar.gz" ;;
         match artifacts with
         | _ :: _ => print (MsgDirArtifacts name artifacts)
         | [] => ret tt
         end
       else ret tt) ;;
      artifacts_loop output_dir rest
  end.

(** Lines 207-229. *)
Definition summarize (args : Namespace) (results : list (string * bool))
  : M unit :=
  print MsgSummaryHeader ;;
  successful <- summary_loop results 0 ;;
  print (MsgTotal successful (length results)) ;;
  (if (0 <? successful)%nat then
     print (MsgSavedTo (args_output_dir args)) ;;
     names <- iterdir (args_output_dir args) ;;
     artifacts_loop (args_output_dir args) names
   else ret tt) ;;
  if (successful <? length results)%nat then sys_exit 1%Z else ret tt.

Definition main (raw : raw_args) : M unit :=
  args <- parse_args raw ;;
  check_docker ;;
  let platforms_to_build := select_platforms (args_platforms args) in
  print (MsgPlatforms platforms_to_build) ;;
  print (MsgWorkspace (args_workspace args)) ;;
  print (MsgOutputDir (args_output_dir args)) ;;
  if args_dry_run args then
    print MsgDryRunHeader ;;
    dry_run_loop platforms_to_build
  else
    mkdir (args_output_dir args) ;;
    results <- build_loop args platforms_to_build [] ;;
    summarize args results.

End Program.

Arguments docker_command : simpl never.

(** ** What one build asks and is answered *)

Section Observations.

Variable env : Env.
Variables (platform_name : string) (config : PlatformConfig).
Variables (workspace_dir output_dir : path).

(** The history in which a call of [build_for_platform] starts. *)
Variable h : history.

Definition platform_dir : path := path_join output_dir platform_name.

Definition container_cmd : string :=
  docker_command config workspace_dir platform_dir.

(** History at line 78, and the answer to the [mkdir] made there. *)
Definition mkdir_history : history :=
  (h ++ [EvPrint (MsgBuildingFor platform_name)])%list.

Definition mkdir_answer : exn + unit :=
  env_mkdir env mkdir_history platform_dir.

(** History at the spawn of line 62 (reached from line 123), and its answer. *)
Definition spawn_history : history :=
  (h ++ [EvPrint (MsgBuildingFor platform_name); EvMkdir platform_dir;
         EvPrint (MsgRunning container_cmd)])%list.

Definition spawn_answer : exn + Z := env_shell env spawn_history container_cmd.

(** History at the [glob] of line 128, and its answer. *)
Definition listing_history : history :=
  (h ++ [EvPrint (MsgBuildingFor platform_name); EvMkdir platform_dir;
         EvPrint (MsgRunning container_cmd); EvShell container_cmd;
         EvPrint (MsgBuilt platform_name)])%list.

Definition listing_answer : exn + list string :=
  env_glob env listing_history platform_dir "*.tar.gz".

(** The exit status of the container process, when there is one: the
    output subdirectory was created and the process was spawned. *)
Definition container_exit_status : option Z :=
  match mkdir_answer with
  | inl _ => None
  | inr _ => match spawn_answer with inl _ => None | inr rc => Some rc end
  end.

(** The container invocation raised. *)
Definition invocation_raises : Prop :=
  mkdir_answer = inr tt /\ exists e, spawn_answer = inl e.

(** The container exited with status 0 and the listing of the archives
    raised. *)
Definition listing_raises : Prop :=
  container_exit_status = Some 0%Z /\ exists e, listing_answer = inl e.

End Observations.

(** ** Vocabulary of the properties *)

(** The process starts with an empty history.  The command line is
    accepted and yields [args]. *)
Definition parses (env : Env) (raw : raw_args) (args : Namespace) : Prop :=
  parse_args env raw [] = (Val args, []).

(** The version probe, the first effect of the run, exits with status 0. *)
Definition probe_succeeds (env : Env) : Prop :=
  env_exec env [] probe_argv = inr 0%Z.

(** The version probe exits with a nonzero status, or the binary is not
    found. *)
Definition probe_fails (env : Env) : Prop :=
  env_exec env [] probe_argv = inl FileNotFoundError \/
  exists rc, env_exec env [] probe_argv = inr rc /\ rc <> 0%Z.

(** The history of a normal-mode run when the loop of line 202 starts:
    the probe, lines 183-185 and the [mkdir] of line 198. *)
Definition loop_start (args : Namespace) : history :=
  [ EvExec probe_argv;
    EvPrint (MsgPlatforms (select_platforms (args_platforms args)));
    EvPrint (MsgWorkspace (args_workspace args));
    EvPrint (MsgOutputDir (args_output_dir args));
    EvMkdir (args_output_dir args) ]%list.

(** What the successive calls of [build_for_platform] made by the loop of
    lines 202-205 return, in order, from history [h]; the list ends at a
    call that does not return. *)
Fixpoint build_returns (env : Env) (args : Namespace) (platforms : list string)
    (h : history) : list (outcome bool) :=
  match platforms with
  | [] => []
  | platform :: rest =>
      match dict_get PLATFORM_CONFIGS platform with
      | None => [Raise (KeyError platform)]
      | Some config =>
          match build_for_platform env platform config
                  (args_workspace args) (args_output_dir args) h with
          | (Val b, h') => Val b :: build_returns env args rest h'
          | (o, _) => [o]
          end
      end
  end%list.


(** The number of successes recorded in [results]. *)
Definition count_true (results : list (string * bool)) : nat :=
  length (filter snd results).

(** No [mkdir] ever raises. *)
Definition mkdir_never_raises (env : Env) : Prop :=
  forall h p, env_mkdir env h p = inr tt.

(** ** The properties as the specification words them *)


(** "[build_for_platform] returns true if and only if the container process
    exit status is 0". *)
Definition success_claim (env : Env) (platform_name : string)
    (config : PlatformConfig) (workspace_dir output_dir : path) (h : history)
  : Prop :=
  fst (build_for_platform env platform_name config workspace_dir output_dir h)
    = Val true <->
  container_exit_status env platform_name config workspace_dir output_dir h
    = Some 0%Z.

(** "The build loop attempts every selected platform in order and records
    one result per platform, with no fail-fast abort". *)
Definition no_fail_fast_claim (env : Env) (args : Namespace)
    (platforms : list string) (h : history) : Prop :=
  let r := build_loop env args platforms []%list h in
  attempted (snd r) = (attempted h ++ platforms)%list /\
  exists results, fst r = Val results /\
    NoDup (keys results) /\
    forall p, In p platforms <-> In p (keys results).

(** "[build_for_platform] never propagates an exception to its caller". *)
Definition never_propagates_claim (env : Env) (platform_name : string)
    (config : PlatformConfig) (workspace_dir output_dir : path) (h : history)
  : Prop :=
  exists b,
    fst (build_for_platform env platform_name config workspace_dir output_dir h)
    = Val b.


(** ** Environments and command lines of the examples *)

(** Everything works: every process exits with status 0, every directory
    can be created, no archive is found. *)
Definition env_ok : Env :=
  mkEnv (fun _ _ => inr 0%Z) (fun _ _ => inr 0%Z) (fun _ _ => inr tt)
        (fun _ _ _ => inr []%list) (fun _ _ => inr []%list)
        (fun _ _ => inr true) "/src" true.

(** The [docker] binary is not on the path. *)
Definition env_no_docker : Env :=
  mkEnv (fun _ _ => inl FileNotFoundError) (fun _ _ => inr 0%Z)
        (fun _ _ => inr tt)
        (fun _ _ _ => inr []%list) (fun _ _ => inr []%list)
        (fun _ _ => inr true) "/src" true.

(** The first container run exits with status 1, every later one with 0. *)
Definition env_flaky : Env :=
  mkEnv (fun _ _ => inr 0%Z)
        (fun h _ => if existsb is_shell h then inr 0%Z else inr 1%Z)
        (fun _ _ => inr tt)
        (fun _ _ _ => inr []%list) (fun _ _ => inr []%list)
        (fun _ _ => inr true) "/src" true.

(** The output root exists but no subdirectory can be created in it. *)
Definition env_mkdir_denied : Env :=
  mkEnv (fun _ _ => inr 0%Z) (fun _ _ => inr 0%Z)
        (fun _ p => if String.eqb p "multi_platform_builds"
                    then inr tt else inl PermissionError)
        (fun _ _ _ => inr []%list) (fun _ _ => inr []%list)
        (fun _ _ => inr true) "/src" true.

(** The shell that should run the container cannot be spawned. *)
Definition env_spawn_raises : Env :=
  mkEnv (fun _ _ => inr 0%Z) (fun _ _ => inl OSError) (fun _ _ => inr tt)
        (fun _ _ _ => inr []%list) (fun _ _ => inr []%list)
        (fun _ _ => inr true) "/src" true.

(** Containers exit with status 0 but listing the archives raises. *)
Definition env_listing_raises : Env :=
  mkEnv (fun _ _ => inr 0%Z) (fun _ _ => inr 0%Z) (fun _ _ => inr tt)
        (fun _ _ _ => inl OSError) (fun _ _ => inr []%list)
        (fun _ _ => inr true) "/src" true.

(** Everything works but the output root cannot be listed. *)
Definition env_unlistable : Env :=
  mkEnv (fun _ _ => inr 0%Z) (fun _ _ => inr 0%Z) (fun _ _ => inr tt)
        (fun _ _ _ => inr []%list) (fun _ _ => inl PermissionError)
        (fun _ _ => inr true) "/src" true.

(** Everything works, but standard output cannot encode the markers. *)
Definition env_ascii : Env :=
  mkEnv (fun _ _ => inr 0%Z) (fun _ _ => inr 0%Z) (fun _ _ => inr tt)
        (fun _ _ _ => inr []%list) (fun _ _ => inr []%list)
        (fun _ _ => inr true) "/src" false.

(** The recipe of [ubuntu20.04]. *)
Definition ubuntu20 : PlatformConfig :=
  mkConfig "ubuntu:20.04" "ubuntu20.04"
    [ "apt-get update";
      "apt-get install -y python3 python3-pip sudo wget curl git build-essential";
      "ln -fs /usr/share/zoneinfo/UTC /etc/localtime";
      "DEBIAN_FRONTEND=noninteractive apt-get install -y tzdata" ]%list.

(** No option given. *)
Definition raw_default : raw_args := mkRaw None None None false.

(** [--dry-run] *)
Definition raw_dry : raw_args := mkRaw None None None true.

(** [--platforms ubuntu20.04] *)
Definition raw_one : raw_args :=
  mkRaw (Some ["ubuntu20.04"]%list) None None false.


(** [--platforms ubuntu20.04 ubuntu20.04] *)
Definition raw_twice : raw_args :=
  mkRaw (Some ["ubuntu20.04"; "ubuntu20.04"]%list) None None false.

(** The namespaces of [raw_two] and [raw_twice]. *)
Definition args_two : Namespace :=
  mkArgs ["ubuntu20.04"; "ubuntu22.04"]%list "multi_platform_builds" "/src" false.

Definition args_twice : Namespace :=
  mkArgs ["ubuntu20.04"; "ubuntu20.04"]%list "multi_platform_builds" "/src" false.

(** ** Vocabulary of the further properties *)

(** The number of occurrences of a character in a string. *)
Fixpoint count_char (c : ascii) (s : string) : nat :=
  match s with
  | EmptyString => 0
  | String a s' => (if Ascii.eqb a c then 1 else 0) + count_char c s'
  end.

(** The string holds no double quote. *)
Definition no_dquote (s : string) : Prop := count_char "034"%char s = 0.

(** The twelve arguments of lines 81-94. *)
Definition docker_args (config : PlatformConfig)
    (workspace_dir platform_output_dir : path) : list string :=
  [ ("docker" : string); "run"; "--rm"; "-it"; "--privileged";
    ("--volume=" ++ workspace_dir ++ ":/workspace")%string;
    ("--volume=" ++ platform_output_dir ++ ":/output_host")%string;
    "--workdir=/workspace";
    ("--env=SYSTEM_NAME=" ++ system_name config)%string;
    image config; "bash"; "-c" ].

(** The script of lines 97-117: the setup commands of the recipe, then the
    eight fixed commands, joined by [ && ]. *)
Definition build_script (config : PlatformConfig) : string :=
  String.concat " && "
    (setup_commands config ++
     [ "echo 'System setup completed'";
       "echo 'Building for system: $SYSTEM_NAME'";
       "echo 'Architecture: $(uname -m)'";
       "python3 pack.py build";
       "echo 'Build completed, copying artifacts...'";
       "cp -v output_*.tar.gz /output_host/ 2>/dev/null || echo 'No tar.gz files to copy'";
       "cp -rv output_logs /output_host/ 2>/dev/null || echo 'No output_logs to copy'";
       "ls -la /output_host/" ])%list.

(** The commands spawned through the shell, in order. *)
Fixpoint shells (h : history) : list string :=
  match h with
  | [] => []
  | EvShell cmd :: h' => cmd :: shells h'
  | _ :: h' => shells h'
  end%list.


(** The paths tested by [is_dir], in order. *)
Fixpoint is_dirs (h : history) : list path :=
  match h with
  | [] => []
  | EvIsDir p :: h' => p :: is_dirs h'
  | _ :: h' => is_dirs h'
  end%list.


(** The event reads or writes the file system. *)
Definition touches_fs (e : event) : bool :=
  match e with
  | EvMkdir _ | EvGlob _ _ | EvIterdir _ | EvIsDir _ => true
  | _ => false
  end.

(** What one call of [build_for_platform] adds to the history, by cases on
    the answers it gets (lines 70, 78, 61-62, 126-134, 139). *)
Definition build_trace (env : Env) (platform_name : string)
    (config : PlatformConfig) (workspace_dir output_dir : path) (h : history)
  : list event :=
  let dir := path_join output_dir platform_name in
  let cmd := docker_command config workspace_dir dir in
  ([EvPrint (MsgBuildingFor platform_name); EvMkdir dir] ++
   match mkdir_answer env platform_name output_dir h with
   | inl _ => []
   | inr _ =>
       [EvPrint (MsgRunning cmd); EvShell cmd] ++
       if env_stdout_encodes env then
         match spawn_answer env platform_name config workspace_dir output_dir h
         with
         | inl e => [EvPrint (MsgBuildError platform_name e)]
         | inr rc =>
             if (rc =? 0)%Z then
               [EvPrint (MsgBuilt platform_name); EvGlob dir "*.tar.gz"] ++
               match listing_answer env platform_name config workspace_dir
                       output_dir h with
               | inl e => [EvPrint (MsgBuildError platform_name e)]
               | inr [] => [EvPrint MsgNoArtifacts]
               | inr names => [EvPrint (MsgArtifacts names)]
               end
             else [EvPrint (MsgBuildFailed platform_name)]
         end
       else []
   end)%list.

(** The value the last pair with key [p] gives to [p], if any. *)
Definition last_result (p : string) (l : list (string * bool)) : option bool :=
  fold_left (fun acc pb => if String.eqb (fst pb) p then Some (snd pb) else acc)
    l None.

(** The lines of the loop of lines 210-212, one per recorded result. *)
Definition status_lines (items : list (string * bool)) : list event :=
  map (fun i => EvPrint (MsgStatus (fst i) (snd i))) items.

(** The history of an accepted run after lines 172-185. *)
Definition prelude (args : Namespace) : history :=
  [ EvExec probe_argv;
    EvPrint (MsgPlatforms (select_platforms (args_platforms args)));
    EvPrint (MsgWorkspace (args_workspace args));
    EvPrint (MsgOutputDir (args_output_dir args)) ]%list.

(** The container command of a platform in a run. *)
Definition command_of (args : Namespace) (platform : string) : string :=
  match dict_get PLATFORM_CONFIGS platform with
  | Some config =>
      docker_command config (args_workspace args)
        (path_join (args_output_dir args) platform)
  | None => ""
  end.





(** The [docker] binary is found but may not be executed. *)
Definition env_docker_denied : Env :=
  mkEnv (fun _ _ => inl PermissionError) (fun _ _ => inr 0%Z)
        (fun _ _ => inr tt)
        (fun _ _ _ => inr []%list) (fun _ _ => inr []%list)
        (fun _ _ => inr true) "/src" true.

(** The output root cannot be created. *)
Definition env_root_denied : Env :=
  mkEnv (fun _ _ => inr 0%Z) (fun _ _ => inr 0%Z)
        (fun _ _ => inl PermissionError)
        (fun _ _ _ => inr []%list) (fun _ _ => inr []%list)
        (fun _ _ => inr true) "/src" true.


(** The namespace of [raw_one] and of [raw_default]. *)
Definition args_one : Namespace :=
  mkArgs ["ubuntu20.04"]%list "multi_platform_builds" "/src" false.

Definition args_default : Namespace :=
  mkArgs ["all"]%list "multi_platform_builds" "/src" false.

(** ** Lemmas on the history *)

Open Scope list_scope.

Lemma attempted_app (h1 h2 : history) :
  attempted (h1 ++ h2) = (attempted h1 ++ attempted h2)%list.
Proof.
  induction h1 as [|e h1 IH]; simpl; [reflexivity|].
  destruct e as [m| | | | | |]; try exact IH.
  destruct m; simpl; try exact IH.
  now rewrite IH.
Qed.

Lemma shells_app (h1 h2 : history) : shells (h1 ++ h2) = shells h1 ++ shells h2.
Proof.
  induction h1 as [|e h1 IH]; simpl; [reflexivity|].
  destruct e; simpl; rewrite ?IH; reflexivity.
Qed.


Lemma is_dirs_app (h1 h2 : history) :
  is_dirs (h1 ++ h2) = is_dirs h1 ++ is_dirs h2.
Proof.
  induction h1 as [|e h1 IH]; simpl; [reflexivity|].
  destruct e; simpl; rewrite ?IH; reflexivity.
Qed.

(** ** Lemmas on the monad *)

Lemma bind_val {A B} (c : M A) (k : A -> M B) h a h' :
  c h = (Val a, h') -> bind c k h = k a h'.
Proof. unfold bind. now intros ->. Qed.

Lemma bind_raise {A B} (c : M A) (k : A -> M B) h e h' :
  c h = (Raise e, h') -> bind c k h = (Raise e, h').
Proof. unfold bind. now intros ->. Qed.

Lemma bind_exit {A B} (c : M A) (k : A -> M B) h n h' :
  c h = (SysExit n, h') -> bind c k h = (SysExit n, h').
Proof. unfold bind. now intros ->. Qed.

(** ** One build *)

Ltac step_build :=
  unfold build_for_platform, run_command, try_except, bind, print,
    print_marked, mkdir, glob, ask, ret, raise, any_exception;
  unfold mkdir_answer, spawn_answer, listing_answer, container_exit_status,
    mkdir_history, spawn_history, listing_history, container_cmd,
    platform_dir;
  rewrite <- ?app_assoc; simpl.

(** The result of [build_for_platform] by cases on the three answers and
    on the encoding of standard output. *)
Lemma build_for_platform_outcome env p cfg ws out h :
  fst (build_for_platform env p cfg ws out h) =
  match mkdir_answer env p out h with
  | inl e => Raise e
  | inr _ =>
      if env_stdout_encodes env then
        match spawn_answer env p cfg ws out h with
        | inl _ => Val false
        | inr rc =>
            if (rc =? 0)%Z then
              match listing_answer env p cfg ws out h with
              | inl _ => Val false
              | inr _ => Val true
              end
            else Val false
        end
      else Raise UnicodeEncodeError
  end.
Proof.
  step_build.
  destruct (env_mkdir env _ _) as [e|[]]; simpl; [reflexivity|].
  rewrite <- ?app_assoc; simpl.
  destruct (env_stdout_encodes env).
  - destruct (env_shell env _ _) as [e|rc]; simpl; [reflexivity|].
    destruct (rc =? 0)%Z; simpl; [|reflexivity].
    rewrite <- ?app_assoc; simpl.
    destruct (env_glob env _ _ _) as [e|[|a l]]; reflexivity.
  - destruct (env_shell env _ _) as [e|rc]; simpl; [reflexivity|].
    destruct (rc =? 0)%Z; reflexivity.
Qed.

(** What [build_for_platform] adds to the history. *)
Lemma build_for_platform_trace env p cfg ws out h :
  snd (build_for_platform env p cfg ws out h)
  = h ++ build_trace env p cfg ws out h.
Proof.
  unfold build_trace. step_build.
  destruct (env_mkdir env _ _) as [e|[]]; simpl;
    [now rewrite <- ?app_assoc|].
  rewrite <- ?app_assoc; simpl.
  destruct (env_stdout_encodes env).
  - destruct (env_shell env _ _) as [e|rc]; simpl;
      [now rewrite <- ?app_assoc|].
    destruct (rc =? 0)%Z; simpl; [|now rewrite <- ?app_assoc].
    rewrite <- ?app_assoc; simpl.
    destruct (env_glob env _ _ _) as [e|[|a l]]; simpl;
      now rewrite <- ?app_assoc.
  - destruct (env_shell env _ _) as [e|rc]; simpl;
      [now rewrite <- ?app_assoc|].
    destruct (rc =? 0)%Z; simpl; now rewrite <- ?app_assoc.
Qed.

(** The history of [build_for_platform]: the banner, the [mkdir], then
    events among which there is no banner, no [mkdir] and no probe. *)
Lemma build_for_platform_history env p cfg ws out h :
  exists t,
    snd (build_for_platform env p cfg ws out h)
    = h ++ EvPrint (MsgBuildingFor p) :: EvMkdir (path_join out p) :: t /\
    attempted t = [] /\ existsb is_exec t = false.
Proof.
  rewrite build_for_platform_trace. unfold build_trace.
  eexists. split; [reflexivity|].
  destruct (mkdir_answer env p out h) as [e|[]]; [split; reflexivity|].
  destruct (env_stdout_encodes env); [|split; reflexivity].
  destruct (spawn_answer env p cfg ws out h) as [e|rc]; [split; reflexivity|].
  destruct (rc =? 0)%Z; [|split; reflexivity].
  destruct (listing_answer env p cfg ws out h) as [e|[|a l]];
    split; reflexivity.
Qed.

Lemma build_for_platform_attempted env p cfg ws out h :
  attempted (snd (build_for_platform env p cfg ws out h)) = attempted h ++ [p].
Proof.
  destruct (build_for_platform_history env p cfg ws out h) as (t & -> & Ht & _).
  rewrite attempted_app. simpl. now rewrite Ht.
Qed.

(** [build_for_platform] never calls [sys.exit]. *)
Lemma build_for_platform_no_exit env p cfg ws out h n :
  fst (build_for_platform env p cfg ws out h) <> SysExit n.
Proof.
  rewrite build_for_platform_outcome.
  destruct (mkdir_answer _ _ _ _); [discriminate|].
  destruct (env_stdout_encodes env); [|discriminate].
  destruct (spawn_answer _ _ _ _ _ _); [discriminate|].
  destruct (_ =? _)%Z; [|discriminate].
  destruct (listing_answer _ _ _ _ _ _); discriminate.
Qed.

(** Once the output subdirectory is created, [build_for_platform] returns
    when standard output can encode the markers. *)
Lemma build_for_platform_returns env p cfg ws out h :
  mkdir_answer env p out h = inr tt ->
  env_stdout_encodes env = true ->
  exists b, fst (build_for_platform env p cfg ws out h) = Val b.
Proof.
  intros Hmkdir Henc. rewrite build_for_platform_outcome, Hmkdir, Henc.
  destruct (spawn_answer env p cfg ws out h) as [e|rc]; [now exists false|].
  destruct (rc =? 0)%Z; [|now exists false].
  destruct (listing_answer env p cfg ws out h);
    [now exists false|now exists true].
Qed.

(** ** Claims on [build_for_platform] *)

(** C2, as worded, fails on two inputs.  The container exits with status
    0 and the listing of the archives at line 128 raises inside the [try]:
    the handler of line 138 returns [False].  The container exits with
    status 0 and standard output cannot encode the marker of line 126: the
    print raises inside the [try], the print of the handler (line 139)
    raises in turn, and nothing is returned. *)
Lemma success_claim_fails_when_listing_raises :
  (container_exit_status env_listing_raises "ubuntu20.04" ubuntu20 "/src"
     "multi_platform_builds" [] = Some 0%Z /\
   fst (build_for_platform env_listing_raises "ubuntu20.04" ubuntu20 "/src"
          "multi_platform_builds" []) = Val false /\
   ~ success_claim env_listing_raises "ubuntu20.04" ubuntu20 "/src"
       "multi_platform_builds" []) /\
  (container_exit_status env_ascii "ubuntu20.04" ubuntu20 "/src"
     "multi_platform_builds" [] = Some 0%Z /\
   fst (build_for_platform env_ascii "ubuntu20.04" ubuntu20 "/src"
          "multi_platform_builds" []) = Raise UnicodeEncodeError /\
   ~ success_claim env_ascii "ubuntu20.04" ubuntu20 "/src"
       "multi_platform_builds" []).
Proof.
  split; (split; [reflexivity|]; split; [reflexivity|]);
    intros [_ H]; specialize (H eq_refl); discriminate H.
Qed.

(** C2, amended: [build_for_platform] returns true if and only if the
    container process exit status is 0, standard output can encode the
    markers of the lines it prints, and the listing of the archives that
    follows does not raise; when standard output can encode the markers
    and the listing returns, whatever names it finds (none or some), the
    result is true if and only if the exit status is 0. *)
Theorem success_iff_status_zero env p cfg ws out h :
  (fst (build_for_platform env p cfg ws out h) = Val true <->
   container_exit_status env p cfg ws out h = Some 0%Z /\
   env_stdout_encodes env = true /\
   exists names, listing_answer env p cfg ws out h = inr names) /\
  (env_stdout_encodes env = true ->
   forall names, listing_answer env p cfg ws out h = inr names ->
     (fst (build_for_platform env p cfg ws out h) = Val true <->
      container_exit_status env p cfg ws out h = Some 0%Z)).
Proof.
  rewrite build_for_platform_outcome. unfold container_exit_status.
  destruct (mkdir_answer env p out h) as [e|[]].
  { split; [|intros _ names _]; split; intros H; try discriminate H.
    destruct H as [H _]; discriminate H. }
  destruct (env_stdout_encodes env).
  2:{ split; [|intros H; discriminate H]. split; intros H;
        [discriminate H|]. destruct H as (_ & H & _); discriminate H. }
  destruct (spawn_answer env p cfg ws out h) as [e|rc].
  { split; [|intros _ names _]; split; intros H; try discriminate H.
    destruct H as [H _]; discriminate H. }
  destruct (rc =? 0)%Z eqn:Hrc.
  - apply Z.eqb_eq in Hrc; subst rc.
    destruct (listing_answer env p cfg ws out h) as [e|names].
    + split; [|intros _ names H; discriminate H].
      split; intros H; [discriminate H|].
      destruct H as (_ & _ & names & H); discriminate H.
    + split; [|intros _ names' _]; split; intros _; auto.
      repeat split. now exists names.
  - apply Z.eqb_neq in Hrc.
    split; [|intros _ names _]; split; intros H; try discriminate H.
    + destruct H as [H _]. injection H as H. contradiction.
    + injection H as H. contradiction.
Qed.

Lemma success_iff_status_zero_witness :
  fst (build_for_platform env_ok "ubuntu20.04" ubuntu20 "/src"
         "multi_platform_builds" []) = Val true.
Proof.
  apply (proj2 (proj1 (success_iff_status_zero env_ok "ubuntu20.04" ubuntu20
                         "/src" "multi_platform_builds" []))).
  split; [reflexivity|]. split; [reflexivity|]. exists []. reflexivity.
Defined.

(** C4, as worded, fails on two inputs: when the [mkdir] of line 78 raises,
    the exception leaves [build_for_platform]; when standard output cannot
    encode the markers, the print of the handler itself (line 139) raises
    and its exception leaves [build_for_platform]. *)
Lemma never_propagates_claim_fails_on_mkdir :
  ~ never_propagates_claim env_mkdir_denied "ubuntu20.04" ubuntu20 "/src"
      "multi_platform_builds" [] /\
  ~ never_propagates_claim env_ascii "ubuntu20.04" ubuntu20 "/src"
      "multi_platform_builds" [].
Proof. split; intros [b H]; discriminate H. Qed.

(** C4, amended: once the output subdirectory of the platform is created,
    and when standard output can encode the markers of the lines printed,
    [build_for_platform] returns a boolean and propagates no exception, and
    an exception raised by the container invocation is converted to
    [false]. *)
Theorem invocation_exception_caught env p cfg ws out h
    (Hmkdir : mkdir_answer env p out h = inr tt)
    (Hprint : env_stdout_encodes env = true) :
  (exists b, fst (build_for_platform env p cfg ws out h) = Val b) /\
  (forall e, spawn_answer env p cfg ws out h = inl e ->
     fst (build_for_platform env p cfg ws out h) = Val false).
Proof.
  split; [exact (build_for_platform_returns env p cfg ws out h Hmkdir Hprint)|].
  intros e He. now rewrite build_for_platform_outcome, Hmkdir, Hprint, He.
Qed.

Lemma invocation_exception_caught_witness :
  fst (build_for_platform env_spawn_raises "ubuntu20.04" ubuntu20 "/src"
         "multi_platform_builds" []) = Val false.
Proof.
  apply (proj2 (invocation_exception_caught env_spawn_raises "ubuntu20.04"
                  ubuntu20 "/src" "multi_platform_builds" [] eq_refl eq_refl)
           OSError).
  reflexivity.
Defined.

(** C8: an exception raised by the [mkdir] of line 78, which precedes the
    [try], leaves [build_for_platform], and nothing is done after that
    [mkdir]; the only other exception that can leave is the
    [UnicodeEncodeError] of the handler's own print (line 139), on a
    standard output that cannot encode the markers; when it can, an
    exception raised by the container invocation or by the listing of the
    archives is converted to [false]. *)
Theorem mkdir_error_propagates env p cfg ws out h :
  (forall e, mkdir_answer env p out h = inl e ->
     fst (build_for_platform env p cfg ws out h) = Raise e /\
     snd (build_for_platform env p cfg ws out h)
     = h ++ [EvPrint (MsgBuildingFor p); EvMkdir (path_join out p)]) /\
  (forall e, fst (build_for_platform env p cfg ws out h) = Raise e ->
     mkdir_answer env p out h = inl e \/
     (mkdir_answer env p out h = inr tt /\
      env_stdout_encodes env = false /\ e = UnicodeEncodeError)) /\
  (env_stdout_encodes env = true ->
   invocation_raises env p cfg ws out h ->
     fst (build_for_platform env p cfg ws out h) = Val false) /\
  (env_stdout_encodes env = true ->
   listing_raises env p cfg ws out h ->
     fst (build_for_platform env p cfg ws out h) = Val false).
Proof.
  split; [|split; [|split]].
  - intros e He. split.
    + now rewrite build_for_platform_outcome, He.
    + rewrite build_for_platform_trace. unfold build_trace. now rewrite He.
  - intros e. rewrite build_for_platform_outcome.
    destruct (mkdir_answer env p out h) as [e'|[]]; [left; congruence|].
    destruct (env_stdout_encodes env).
    + destruct (spawn_answer env p cfg ws out h); [discriminate|].
      destruct (_ =? _)%Z; [|discriminate].
      destruct (listing_answer env p cfg ws out h); discriminate.
    + intros H. injection H as <-. right. auto.
  - intros Henc [Hm [e He]].
    now rewrite build_for_platform_outcome, Hm, Henc, He.
  - intros Henc. unfold listing_raises, container_exit_status.
    rewrite build_for_platform_outcome, Henc.
    destruct (mkdir_answer env p out h); [intros [H _]; discriminate H|].
    destruct (spawn_answer env p cfg ws out h) as [|rc];
      [intros [H _]; discriminate H|].
    intros [H [e He]]. injection H as ->. simpl. now rewrite He.
Qed.

Lemma mkdir_error_propagates_witness :
  fst (build_for_platform env_mkdir_denied "ubuntu20.04" ubuntu20 "/src"
         "multi_platform_builds" []) = Raise PermissionError /\
  fst (build_for_platform env_spawn_raises "ubuntu20.04" ubuntu20 "/src"
         "multi_platform_builds" []) = Val false /\
  fst (build_for_platform env_listing_raises "ubuntu20.04" ubuntu20 "/src"
         "multi_platform_builds" []) = Val false.
Proof.
  split; [|split].
  - apply (proj1 (mkdir_error_propagates env_mkdir_denied "ubuntu20.04"
                    ubuntu20 "/src" "multi_platform_builds" [])).
    reflexivity.
  - apply (proj1 (proj2 (proj2 (mkdir_error_propagates env_spawn_raises
                                  "ubuntu20.04" ubuntu20 "/src"
                                  "multi_platform_builds" [])))).
    + reflexivity.
    + split; [reflexivity|]. exists OSError. reflexivity.
  - apply (proj2 (proj2 (proj2 (mkdir_error_propagates env_listing_raises
                                  "ubuntu20.04" ubuntu20 "/src"
                                  "multi_platform_builds" [])))).
    + reflexivity.
    + split; [reflexivity|]. exists OSError. reflexivity.
Defined.

(** ** The command line *)

Ltac step_main :=
  unfold main, check_docker, subprocess_run_check, try_except, bind, ask,
    print, print_marked, sys_exit, ret, raise.

Lemma str_in_In (x : string) (xs : list string) :
  str_in x xs = true <-> In x xs.
Proof.
  unfold str_in. rewrite existsb_exists. split.
  - intros (y & Hy & Heq). apply String.eqb_eq in Heq. now subst.
  - intros H. exists x. split; [exact H|apply String.eqb_refl].
Qed.

Lemma choices_spec (v : string) :
  In v choices <-> In v (keys PLATFORM_CONFIGS) \/ v = "all".
Proof.
  unfold choices. rewrite in_app_iff. simpl. intuition.
Qed.

(** [parse_platforms] accepts a non-empty list of choices as it is and
    rejects anything else with exit status 2. *)
Lemma parse_platforms_given values h :
  parse_platforms (Some values) h =
  if match values with [] => false | _ => true end
     && forallb (fun v => str_in v choices) values
  then (Val values, h)
  else (SysExit 2%Z, h ++ [EvPrint MsgUsageError]).
Proof.
  destruct values as [|v vs]; [reflexivity|].
  unfold parse_platforms.
  destruct (forallb _ (v :: vs)); reflexivity.
Qed.

Lemma parses_platforms env raw args :
  parses env raw args ->
  forallb (fun v => str_in v choices) (args_platforms args) = true /\
  args_dry_run args = raw_dry_run raw.
Proof.
  unfold parses, parse_args, bind.
  destruct (raw_platforms raw) as [values|].
  - rewrite parse_platforms_given.
    destruct (_ && _) eqn:E; [|discriminate].
    intros H. injection H as <-. simpl.
    apply andb_true_iff in E. tauto.
  - simpl. intros H. injection H as <-. simpl. split; reflexivity.
Qed.

Lemma key_has_config (p : string) :
  In p (keys PLATFORM_CONFIGS) ->
  exists config, dict_get PLATFORM_CONFIGS p = Some config.
Proof.
  simpl. intros [<-|[<-|[<-|[<-|[]]]]]; eexists; reflexivity.
Qed.

(** Every platform selected from an accepted command line is a key of the
    registry. *)
Lemma select_platforms_keys (values : list string) :
  forallb (fun v => str_in v choices) values = true ->
  Forall (fun p => In p (keys PLATFORM_CONFIGS)) (select_platforms values).
Proof.
  intros H. unfold select_platforms.
  destruct (str_in "all" values) eqn:E.
  - apply Forall_forall. auto.
  - apply Forall_forall. intros p Hp.
    rewrite forallb_forall in H. specialize (H p Hp).
    apply str_in_In, choices_spec in H. destruct H as [H| ->]; [exact H|].
    apply str_in_In in Hp. congruence.
Qed.

(** C7: [--platforms] accepts a non-empty list made of registry keys and
    of the literal [all], and is [["all"]] when the option is absent; a list
    holding any other identifier is rejected at parse time, with exit code 2
    and before any other effect; when [all] is selected the platforms to
    build are exactly the registry keys. *)
Theorem platforms_argument_choices env values o w d :
  (values <> [] ->
   Forall (fun v => In v (keys PLATFORM_CONFIGS) \/ v = "all") values ->
   parse_platforms (Some values) [] = (Val values, [])) /\
  (Exists (fun v => ~ (In v (keys PLATFORM_CONFIGS) \/ v = "all")) values ->
   main env (mkRaw (Some values) o w d) []
   = (SysExit 2%Z, [EvPrint MsgUsageError])) /\
  parse_platforms None [] = (Val ["all"], []) /\
  (In "all" values -> select_platforms values = keys PLATFORM_CONFIGS) /\
  select_platforms ["all"]
  = ["ubuntu20.04"; "ubuntu22.04"; "manylinux_2014"; "manylinux_2_24"].
Proof.
  split; [|split; [|split; [|split]]].
  - intros Hne Hall. rewrite parse_platforms_given.
    destruct values as [|v vs]; [contradiction|].
    replace (forallb _ (v :: vs)) with true; [reflexivity|].
    symmetry. apply forallb_forall. intros x Hx.
    rewrite Forall_forall in Hall.
    apply str_in_In, choices_spec, Hall, Hx.
  - intros Hex. step_main. unfold parse_args, bind. simpl raw_platforms.
    rewrite parse_platforms_given.
    replace (forallb _ values) with false;
      [rewrite andb_false_r; reflexivity|].
    symmetry. apply not_true_is_false. intros Hall.
    rewrite forallb_forall in Hall.
    apply Exists_exists in Hex. destruct Hex as (x & Hx & Hbad).
    apply Hbad, choices_spec, str_in_In, Hall, Hx.
  - reflexivity.
  - intros Hin. unfold select_platforms.
    apply str_in_In in Hin. now rewrite Hin.
  - reflexivity.
Qed.

Lemma platforms_argument_choices_witness :
  main env_ok (mkRaw (Some ["ubuntu20.04"; "centos7"]) None None false) []
  = (SysExit 2%Z, [EvPrint MsgUsageError]).
Proof.
  apply (platforms_argument_choices env_ok ["ubuntu20.04"; "centos7"]
           None None false).
  apply Exists_cons_tl, Exists_cons_hd.
  simpl. intros [[H|[H|[H|[H|[]]]]]|H]; discriminate H.
Defined.

(** C10: when [all] occurs anywhere among the values of [--platforms], the
    platforms to build are the registry keys in registry order, and the run
    is the run of [--platforms all]: the explicit identifiers given beside
    it are ignored. *)
Theorem all_overrides_explicit env values o w d h :
  In "all" values ->
  select_platforms values
  = ["ubuntu20.04"; "ubuntu22.04"; "manylinux_2014"; "manylinux_2_24"] /\
  (Forall (fun v => In v (keys PLATFORM_CONFIGS) \/ v = "all") values ->
   main env (mkRaw (Some values) o w d) h
   = main env (mkRaw (Some ["all"]) o w d) h).
Proof.
  intros Hin.
  assert (Hsel : select_platforms values = keys PLATFORM_CONFIGS).
  { unfold select_platforms. apply str_in_In in Hin. now rewrite Hin. }
  split; [exact Hsel|]. intros Hall.
  unfold main, parse_args, bind. simpl raw_platforms.
  rewrite !parse_platforms_given.
  replace (forallb _ values) with true.
  2:{ symmetry. apply forallb_forall. intros x Hx.
      rewrite Forall_forall in Hall.
      apply str_in_In, choices_spec, Hall, Hx. }
  destruct values as [|v vs]; [contradiction|].
  cbn [andb ret forallb str_in existsb String.eqb choices keys map fst
       PLATFORM_CONFIGS app Ascii.eqb Bool.eqb orb].
  cbn [args_platforms args_dry_run args_output_dir args_workspace
       raw_dry_run raw_output_dir raw_workspace].
  destruct (check_docker env h) as [[[]|e|n] h1]; try reflexivity.
  rewrite Hsel. unfold print.
  destruct d; [reflexivity|].
  destruct (mkdir env _ _) as [[[]|e|n] h2]; reflexivity.
Qed.

Lemma all_overrides_explicit_witness :
  select_platforms ["manylinux_2014"; "all"; "ubuntu20.04"]
  = ["ubuntu20.04"; "ubuntu22.04"; "manylinux_2014"; "manylinux_2_24"].
Proof.
  apply (all_overrides_explicit env_ok ["manylinux_2014"; "all"; "ubuntu20.04"]
           None None false []).
  simpl. auto.
Defined.

(** ** The probe *)

(** A failing probe ends the run at line 175, or at line 174 when the
    message cannot be encoded. *)
Lemma main_probe_failure env raw args :
  parses env raw args -> probe_fails env ->
  main env raw []
  = if env_stdout_encodes env
    then (SysExit 1%Z, [EvExec probe_argv; EvPrint MsgDockerUnavailable])
    else (Raise UnicodeEncodeError, [EvExec probe_argv]).
Proof.
  unfold parses, probe_fails. intros Hp Hf. step_main. rewrite Hp. simpl.
  destruct Hf as [-> | (rc & -> & Hrc)]; simpl.
  - now destruct (env_stdout_encodes env).
  - apply Z.eqb_neq in Hrc. rewrite Hrc. simpl.
    now destruct (env_stdout_encodes env).
Qed.

(** C6: when the version probe fails (nonzero status, or binary not found)
    the process exits with code 1; no directory has been created and no
    platform build has been started. *)
Theorem probe_failure_is_fatal env raw args
    (Hparse : parses env raw args) (Hprobe : probe_fails env) :
  exit_code (fst (main env raw [])) = 1%Z /\
  existsb is_mkdir (snd (main env raw [])) = false /\
  attempted (snd (main env raw [])) = [] /\
  existsb is_shell (snd (main env raw [])) = false.
Proof.
  rewrite (main_probe_failure env raw args Hparse Hprobe).
  destruct (env_stdout_encodes env); repeat split.
Qed.

Lemma probe_failure_is_fatal_witness :
  exit_code (fst (main env_no_docker raw_default [])) = 1%Z /\
  existsb is_mkdir (snd (main env_no_docker raw_default [])) = false /\
  attempted (snd (main env_no_docker raw_default [])) = [] /\
  existsb is_shell (snd (main env_no_docker raw_default [])) = false.
Proof.
  apply (probe_failure_is_fatal env_no_docker raw_default
           (mkArgs ["all"] "multi_platform_builds" "/src" false)).
  - reflexivity.
  - left. reflexivity.
Defined.

(** C9: the probe is the first effect of the run, before the dry-run
    branch: in dry-run mode too a failing probe makes the process exit with
    code 1, and no recipe line is printed. *)
Theorem dry_run_probe_failure env raw args
    (Hparse : parses env raw args) (Hdry : raw_dry_run raw = true)
    (Hprobe : probe_fails env) :
  hd_error (snd (main env raw [])) = Some (EvExec probe_argv) /\
  exit_code (fst (main env raw [])) = 1%Z /\
  existsb is_recipe (snd (main env raw [])) = false.
Proof.
  rewrite (main_probe_failure env raw args Hparse Hprobe).
  destruct (env_stdout_encodes env); repeat split.
Qed.

Lemma dry_run_probe_failure_witness :
  hd_error (snd (main env_no_docker raw_dry [])) = Some (EvExec probe_argv) /\
  exit_code (fst (main env_no_docker raw_dry [])) = 1%Z /\
  existsb is_recipe (snd (main env_no_docker raw_dry [])) = false.
Proof.
  apply (dry_run_probe_failure env_no_docker raw_dry
           (mkArgs ["all"] "multi_platform_builds" "/src" true)).
  - reflexivity.
  - reflexivity.
  - left. reflexivity.
Defined.

(** ** Dry run *)

Lemma parse_args_cases env raw h :
  (exists args,
     parse_args env raw h = (Val args, h) /\
     forallb (fun v => str_in v choices) (args_platforms args) = true /\
     args_dry_run args = raw_dry_run raw) \/
  parse_args env raw h = (SysExit 2%Z, h ++ [EvPrint MsgUsageError]).
Proof.
  unfold parse_args, bind.
  destruct (raw_platforms raw) as [values|].
  - rewrite parse_platforms_given.
    destruct (_ && _) eqn:E; [left|right; reflexivity].
    eexists. split; [reflexivity|]. simpl.
    apply andb_true_iff in E. tauto.
  - left. eexists. split; [reflexivity|]. simpl. auto.
Qed.






(** ** The build loop *)

Lemma keys_dict_set {V} (d : list (string * V)) k v :
  keys (dict_set d k v) = if str_in k (keys d) then keys d else keys d ++ [k].
Proof.
  induction d as [|[k' v'] d IH]; simpl; [reflexivity|].
  rewrite (String.eqb_sym k k').
  destruct (String.eqb k' k); simpl; [reflexivity|].
  unfold keys in *. rewrite IH. unfold str_in.
  now destruct (existsb _ _).
Qed.

Lemma in_keys_dict_set {V} (d : list (string * V)) k v p :
  In p (keys (dict_set d k v)) <-> In p (keys d) \/ p = k.
Proof.
  rewrite keys_dict_set. destruct (str_in k (keys d)) eqn:E.
  - apply str_in_In in E. split; [auto|]. intros [H| ->]; assumption.
  - rewrite in_app_iff. simpl. intuition.
Qed.

Lemma nodup_keys_dict_set {V} (d : list (string * V)) k v :
  NoDup (keys d) -> NoDup (keys (dict_set d k v)).
Proof.
  intros Hd. rewrite keys_dict_set. destruct (str_in k (keys d)) eqn:E.
  - exact Hd.
  - apply NoDup_app; [exact Hd|repeat constructor; intros []|].
    intros x Hx [<-|[]]. apply str_in_In in Hx. congruence.
Qed.

(** When no [mkdir] raises and standard output can encode the markers,
    the loop of lines 202-205 runs to its end whatever the builds
    return. *)
Lemma build_loop_attempts env args ps :
  mkdir_never_raises env ->
  env_stdout_encodes env = true ->
  Forall (fun p => In p (keys PLATFORM_CONFIGS)) ps ->
  forall results h, NoDup (keys results) ->
    attempted (snd (build_loop env args ps results h)) = attempted h ++ ps /\
    exists results',
      fst (build_loop env args ps results h) = Val results' /\
      NoDup (keys results') /\
      forall p, In p (keys results') <-> In p (keys results) \/ In p ps.
Proof.
  intros Hmk Henc.
  induction 1 as [|p ps Hp _ IH]; intros results h Hnd; simpl.
  - rewrite app_nil_r. split; [reflexivity|].
    exists results. repeat split; tauto.
  - destruct (key_has_config p Hp) as [c Hc].
    unfold bind at 1, config_of. rewrite Hc. unfold ret.
    pose proof (build_for_platform_attempted env p c (args_workspace args)
                  (args_output_dir args) h) as Hatt.
    destruct (build_for_platform_returns env p c (args_workspace args)
                (args_output_dir args) h (Hmk _ _) Henc) as [b Hb].
    unfold bind.
    destruct (build_for_platform env p c _ _ h) as [o h1].
    simpl in Hb, Hatt. subst o.
    destruct (IH (dict_set results p b) h1 (nodup_keys_dict_set _ _ _ Hnd))
      as (IHa & results' & IHv & IHn & IHk).
    split.
    + rewrite IHa, Hatt, <- app_assoc. reflexivity.
    + exists results'. split; [exact IHv|]. split; [exact IHn|].
      intros q. rewrite IHk, in_keys_dict_set. simpl.
      intuition congruence.
Qed.

(** C3, as worded, fails on two inputs.  When the [mkdir] of line 78 raises
    for the first platform, the exception leaves the loop and the second
    platform is never attempted.  When standard output cannot encode the
    markers, the first build raises at line 126 and again in its handler
    (line 139), and the second platform is never attempted either. *)
Lemma no_fail_fast_claim_fails_on_mkdir :
  (attempted (snd (build_loop env_mkdir_denied args_two
                     ["ubuntu20.04"; "ubuntu22.04"] [] (loop_start args_two)))
   = ["ubuntu20.04"] /\
   ~ no_fail_fast_claim env_mkdir_denied args_two
       ["ubuntu20.04"; "ubuntu22.04"] (loop_start args_two)) /\
  (attempted (snd (build_loop env_ascii args_two
                     ["ubuntu20.04"; "ubuntu22.04"] [] (loop_start args_two)))
   = ["ubuntu20.04"] /\
   ~ no_fail_fast_claim env_ascii args_two
       ["ubuntu20.04"; "ubuntu22.04"] (loop_start args_two)).
Proof.
  split; (split; [reflexivity|]); intros [H _]; discriminate H.
Qed.

(** C3, amended: a build that fails with a nonzero exit status or with an
    exception raised by the container invocation or by the listing of the
    archives does not stop the loop: whenever no creation of a directory
    raises and standard output can encode the markers of the lines the
    builds print, the loop attempts every selected platform in order,
    whatever the earlier builds returned, and ends with exactly one result
    per selected platform. *)
Theorem no_fail_fast env args ps h
    (Hmkdir : mkdir_never_raises env)
    (Hprint : env_stdout_encodes env = true)
    (Hkeys : Forall (fun p => In p (keys PLATFORM_CONFIGS)) ps) :
  no_fail_fast_claim env args ps h.
Proof.
  destruct (build_loop_attempts env args ps Hmkdir Hprint Hkeys [] h
              (NoDup_nil _))
    as (Ha & results & Hv & Hn & Hk).
  split; [exact Ha|]. exists results. split; [exact Hv|]. split; [exact Hn|].
  intros p. rewrite Hk. simpl. tauto.
Qed.

Lemma no_fail_fast_witness :
  build_returns env_flaky args_two ["ubuntu20.04"; "ubuntu22.04"]
    (loop_start args_two) = [Val false; Val true] /\
  no_fail_fast_claim env_flaky args_two ["ubuntu20.04"; "ubuntu22.04"]
    (loop_start args_two).
Proof.
  split; [reflexivity|].
  apply (no_fail_fast env_flaky args_two ["ubuntu20.04"; "ubuntu22.04"]
           (loop_start args_two)).
  - intros h p. reflexivity.
  - reflexivity.
  - apply Forall_cons; [simpl; auto|].
    apply Forall_cons; [simpl; auto|apply Forall_nil].
Defined.

(** ** The summary and the exit code *)



(** The loop of lines 210-214 counts the successes and does not raise. *)
Lemma summary_loop_run (items : list (string * bool)) :
  forall n h, exists h',
    summary_loop items n h = (Val (n + count_true items), h').
Proof.
  induction items as [|[p b] items IH]; intros n h; simpl.
  - exists h. unfold ret, count_true. simpl. now rewrite Nat.add_0_r.
  - unfold bind, print.
    destruct (IH (if b then n + 1 else n) (h ++ [EvPrint (MsgStatus p b)]))
      as [h' ->].
    exists h'. unfold count_true. destruct b; simpl; [|reflexivity].
    do 2 f_equal. lia.
Qed.

(** The loop of lines 221-225 returns or raises; it never exits. *)
Lemma artifacts_loop_outcome env out (names : list string) :
  forall h, fst (artifacts_loop env out names h) = Val tt \/
            exists e, fst (artifacts_loop env out names h) = Raise e.
Proof.
  induction names as [|name names IH]; intros h; simpl; [now left|].
  unfold bind, is_dir, glob, ask, print, ret.
  destruct (env_is_dir env h _) as [e|[|]]; simpl; [right; now exists e| |].
  - destruct (env_glob env _ _ _) as [e|[|a l]]; simpl;
      [right; now exists e| |]; apply IH.
  - apply IH.
Qed.

(** Lines 207-229: an exception of the listing apart, the outcome is
    [sys.exit(1)] when fewer successes than results are counted, and a
    plain return otherwise. *)
Lemma summarize_outcome env args results h :
  (exists e, fst (summarize env args results h) = Raise e) \/
  fst (summarize env args results h)
  = if (count_true results <? length results)%nat
    then SysExit 1%Z else Val tt.
Proof.
  destruct (summarize env args results h) as [o h'] eqn:E. cbn [fst].
  revert E. unfold summarize, bind, print.
  destruct (summary_loop_run results 0 (h ++ [EvPrint MsgSummaryHeader]))
    as [h1 ->].
  change (0 + count_true results) with (count_true results). cbv beta iota.
  destruct (0 <? count_true results)%nat.
  - unfold iterdir, ask. cbv beta iota.
    destruct (env_iterdir env _ _) as [e|names]; cbv beta iota.
    + intros E. injection E as <- _. left. now exists e.
    + pose proof (artifacts_loop_outcome env (args_output_dir args) names
        (((h1 ++ [EvPrint (MsgTotal (count_true results) (length results))])
            ++ [EvPrint (MsgSavedTo (args_output_dir args))])
           ++ [EvIterdir (args_output_dir args)])) as Ho.
      destruct (artifacts_loop env _ names _) as [[[]|e|n] h2];
        cbn [fst] in Ho.
      * unfold sys_exit, ret.
        destruct (count_true results <? length results)%nat;
          intros E; injection E as <- _; now right.
      * intros E. injection E as <- _. left. now exists e.
      * destruct Ho as [Ho|[e Ho]]; discriminate Ho.
  - unfold sys_exit, ret.
    destruct (count_true results <? length results)%nat;
      intros E; injection E as <- _; now right.
Qed.



(** A normal-mode run whose probe succeeded, from line 198 on. *)
Lemma main_normal_mode env raw args :
  parses env raw args -> raw_dry_run raw = false -> probe_succeeds env ->
  main env raw []
  = (mkdir env (args_output_dir args) ;;
     results <- build_loop env args (select_platforms (args_platforms args)) [] ;;
     summarize env args results)
      [ EvExec probe_argv;
        EvPrint (MsgPlatforms (select_platforms (args_platforms args)));
        EvPrint (MsgWorkspace (args_workspace args));
        EvPrint (MsgOutputDir (args_output_dir args)) ].
Proof.
  intros Hp Hn Hprobe.
  destruct (parses_platforms env raw args Hp) as [_ Hd].
  unfold main. rewrite (bind_val _ _ _ _ _ Hp).
  unfold check_docker, subprocess_run_check, try_except, ask, ret, print.
  unfold bind at 1 2 3 4 5 6. rewrite Hprobe. simpl. rewrite Hd, Hn.
  reflexivity.
Qed.





(** ** Further properties of [run_command] and [build_for_platform] *)



Lemma count_char_app c (s t : string) :
  count_char c (s ++ t)%string = count_char c s + count_char c t.
Proof.
  induction s as [|a s IH]; simpl; [reflexivity|]. rewrite IH. lia.
Qed.

Lemma count_char_concat c sep (l : list string) :
  count_char c sep = 0 -> Forall (fun s => count_char c s = 0) l ->
  count_char c (String.concat sep l) = 0.
Proof.
  intros Hsep. induction 1 as [|s l Hs Hl IH]; [reflexivity|].
  destruct l as [|t l]; [exact Hs|].
  change (String.concat sep (s :: t :: l))
    with (s ++ sep ++ String.concat sep (t :: l))%string.
  rewrite !count_char_app, Hs, Hsep, IH. reflexivity.
Qed.

(** X2: the command of line 122 is the twelve arguments of lines 81-94
    joined by spaces, a space, and the script of lines 97-117 between two
    double quotes; when neither the recipe nor the two paths hold a double
    quote, neither the arguments nor the script hold one, so that the two
    double quotes that enclose the script are the only ones of the
    command. *)
Theorem docker_command_quoting cfg ws dir
    (Himage : no_dquote (image cfg)) (Hname : no_dquote (system_name cfg))
    (Hsetup : Forall no_dquote (setup_commands cfg))
    (Hws : no_dquote ws) (Hdir : no_dquote dir) :
  docker_command cfg ws dir
  = (String.concat " " (docker_args cfg ws dir)
     ++ " " ++ dquote ++ build_script cfg ++ dquote)%string /\
  no_dquote (String.concat " " (docker_args cfg ws dir)) /\
  no_dquote (build_script cfg) /\
  count_char "034"%char (docker_command cfg ws dir) = 2.
Proof.
  unfold no_dquote in *.
  assert (Hargs : count_char "034"%char
                    (String.concat " " (docker_args cfg ws dir)) = 0).
  { apply count_char_concat; [reflexivity|]. unfold docker_args.
    repeat (apply Forall_cons; [try reflexivity|]); try apply Forall_nil;
      rewrite ?count_char_app, ?Hws, ?Hdir, ?Hname, ?Himage; reflexivity. }
  assert (Hscript : count_char "034"%char (build_script cfg) = 0).
  { apply count_char_concat; [reflexivity|].
    apply Forall_app. split; [exact Hsetup|].
    repeat (apply Forall_cons; [reflexivity|]). apply Forall_nil. }
  assert (Hshape : docker_command cfg ws dir
                   = (String.concat " " (docker_args cfg ws dir)
                      ++ " " ++ dquote ++ build_script cfg ++ dquote)%string)
    by reflexivity.
  split; [exact Hshape|]. split; [exact Hargs|]. split; [exact Hscript|].
  rewrite Hshape, !count_char_app, Hargs, Hscript. reflexivity.
Qed.

Lemma docker_command_quoting_witness :
  count_char "034"%char
    (docker_command ubuntu20 "/src" "multi_platform_builds/ubuntu20.04") = 2.
Proof.
  apply docker_command_quoting; try reflexivity.
  repeat (apply Forall_cons; [reflexivity|]). apply Forall_nil.
Defined.


(** X4: the lines printed by [build_for_platform] agree with its result:
    the success line of line 126 is printed exactly when the container
    exited with status 0 and standard output can encode the marker; a true
    result comes with that line and with no error line; a false result
    comes with the failure line of line 134 or with the error line of line
    139; when standard output cannot encode the markers, none of the
    marked lines is printed. *)
Theorem build_messages env p cfg ws out h :
  let t := build_trace env p cfg ws out h in
  snd (build_for_platform env p cfg ws out h) = h ++ t /\
  (In (EvPrint (MsgBuilt p)) t <->
   container_exit_status env p cfg ws out h = Some 0%Z /\
   env_stdout_encodes env = true) /\
  (fst (build_for_platform env p cfg ws out h) = Val true ->
   In (EvPrint (MsgBuilt p)) t /\
   forall e, ~ In (EvPrint (MsgBuildError p e)) t) /\
  (fst (build_for_platform env p cfg ws out h) = Val false ->
   In (EvPrint (MsgBuildFailed p)) t \/
   exists e, In (EvPrint (MsgBuildError p e)) t) /\
  (env_stdout_encodes env = false ->
   forall m, In (EvPrint m) t ->
     m = MsgBuildingFor p \/
     m = MsgRunning (docker_command cfg ws (path_join out p))).
Proof.
  intros t. split; [apply build_for_platform_trace|]. subst t.
  rewrite build_for_platform_outcome.
  unfold build_trace, container_exit_status.
  destruct (mkdir_answer env p out h) as [e|[]];
    [|destruct (env_stdout_encodes env);
      [destruct (spawn_answer env p cfg ws out h) as [e|rc];
       [|destruct (rc =? 0)%Z eqn:Hrc;
         [apply Z.eqb_eq in Hrc; subst rc;
          destruct (listing_answer env p cfg ws out h) as [e|[|a l]]
         |apply Z.eqb_neq in Hrc]]
      |destruct (spawn_answer env p cfg ws out h) as [e|rc]]];
    cbn; (split; [|split; [|split]]); intros;
    try discriminate; try congruence;
    try (split; [|intros e' He']);
    try (intuition (discriminate || congruence));
    try (right; exists e; intuition auto).
Qed.

Lemma build_messages_witness :
  In (EvPrint (MsgBuilt "ubuntu20.04"))
     (build_trace env_listing_raises "ubuntu20.04" ubuntu20 "/src"
        "multi_platform_builds" []) /\
  exists e,
    In (EvPrint (MsgBuildError "ubuntu20.04" e))
       (build_trace env_listing_raises "ubuntu20.04" ubuntu20 "/src"
          "multi_platform_builds" []).
Proof.
  pose proof (build_messages env_listing_raises "ubuntu20.04" ubuntu20 "/src"
                "multi_platform_builds" []) as (_ & Hbuilt & _ & Hfalse & _).
  split; [apply Hbuilt; split; reflexivity|].
  destruct (Hfalse eq_refl) as [H|H]; [|exact H].
  exfalso. cbn in H. intuition discriminate.
Defined.

(** ** Further properties of the build loop and of the summary *)

(** Lookup after [d[k] = v]. *)
Lemma dict_get_set {V} (d : list (string * V)) k v k' :
  dict_get (dict_set d k v) k'
  = if String.eqb k k' then Some v else dict_get d k'.
Proof.
  induction d as [|[k1 v1] d IH]; simpl.
  - rewrite (String.eqb_sym k k'), (String.eqb_sym k' k). reflexivity.
  - destruct (String.eqb k1 k) eqn:E1; simpl.
    + apply String.eqb_eq in E1. subst k1.
      now destruct (String.eqb k k').
    + destruct (String.eqb k1 k') eqn:E2.
      * apply String.eqb_eq in E2. subst k1.
        rewrite String.eqb_sym, E1. reflexivity.
      * exact IH.
Qed.

Lemma build_loop_last_wins env args ps :
  forall bs results h,
    build_returns env args ps h = map Val bs ->
    exists results',
      fst (build_loop env args ps results h) = Val results' /\
      forall p,
        dict_get results' p
        = fold_left (fun acc pb =>
                       if String.eqb (fst pb) p then Some (snd pb) else acc)
            (combine ps bs) (dict_get results p).
Proof.
  induction ps as [|q ps IH]; intros bs results h Hr.
  - exists results. split; [reflexivity|]. intros p. reflexivity.
  - cbn [build_returns] in Hr. cbn [build_loop].
    unfold bind at 1, config_of.
    destruct (dict_get PLATFORM_CONFIGS q) as [c|];
      [|destruct bs; discriminate Hr].
    unfold ret, bind.
    destruct (build_for_platform env q c _ _ h) as [[b|e|n] h1];
      try (destruct bs; discriminate Hr).
    destruct bs as [|b' bs]; [discriminate Hr|].
    cbn [map] in Hr. injection Hr as <- Hr.
    destruct (IH bs (dict_set results q b) h1 Hr) as (results' & Hv & Hget).
    exists results'. split; [exact Hv|]. intros p.
    rewrite Hget, dict_get_set. reflexivity.
Qed.

(** X5: when every build of the loop of lines 202-205 returns, the loop
    returns a [results] in which each platform has the value returned by
    its last build: a platform selected several times keeps only its last
    result. *)
Theorem results_keep_last_build env args ps bs h
    (Hreturns : build_returns env args ps h = map Val bs) :
  exists results,
    fst (build_loop env args ps [] h) = Val results /\
    forall p, dict_get results p = last_result p (combine ps bs).
Proof.
  destruct (build_loop_last_wins env args ps bs [] h Hreturns)
    as (results & Hv & Hget).
  exists results. split; [exact Hv|]. intros p. now rewrite Hget.
Qed.

Lemma results_keep_last_build_witness :
  exists results,
    fst (build_loop env_flaky args_twice ["ubuntu20.04"; "ubuntu20.04"] []
           (loop_start args_twice)) = Val results /\
    forall p,
      dict_get results p
      = last_result p [("ubuntu20.04", false); ("ubuntu20.04", true)].
Proof.
  apply (results_keep_last_build env_flaky args_twice
           ["ubuntu20.04"; "ubuntu20.04"] [false; true]
           (loop_start args_twice)).
  reflexivity.
Defined.

Lemma summary_loop_trace (items : list (string * bool)) :
  forall n h,
    summary_loop items n h
    = (Val (n + count_true items), h ++ status_lines items).
Proof.
  induction items as [|[p b] items IH]; intros n h; simpl.
  - unfold ret, count_true. simpl. now rewrite Nat.add_0_r, app_nil_r.
  - unfold bind, print. rewrite IH, <- app_assoc. simpl.
    unfold count_true. destruct b; simpl; [|reflexivity].
    do 2 f_equal. lia.
Qed.

(** X6: the loop of lines 210-214 prints one status line per recorded
    result, in the order of [results], adds the number of true results to
    the counter it starts from, and neither raises nor exits. *)
Theorem summary_loop_counts items n h :
  summary_loop items n h
  = (Val (n + count_true items), h ++ status_lines items) /\
  count_true items <= length items /\
  length (status_lines items) = length items.
Proof.
  split; [apply summary_loop_trace|]. split.
  - unfold count_true. apply filter_length_le.
  - unfold status_lines. apply length_map.
Qed.

Lemma summarize_no_success env args results h :
  count_true results = 0 ->
  summarize env args results h
  = (if (0 <? length results)%nat then SysExit 1%Z else Val tt,
     h ++ EvPrint MsgSummaryHeader :: status_lines results
       ++ [EvPrint (MsgTotal 0 (length results))]).
Proof.
  intros Hc. unfold summarize, bind, print.
  rewrite summary_loop_trace, Hc. simpl.
  unfold ret, sys_exit.
  rewrite <- !app_assoc. simpl.
  destruct (length results); reflexivity.
Qed.

(** X7: when no recorded result is true, lines 207-229 print the header,
    the status lines and the total, never ask anything of the file system,
    cannot raise, and end in [sys.exit(1)] unless [results] is empty. *)
Theorem summary_without_success env args results h
    (Hnone : count_true results = 0) :
  summarize env args results h
  = (if (0 <? length results)%nat then SysExit 1%Z else Val tt,
     h ++ EvPrint MsgSummaryHeader :: status_lines results
       ++ [EvPrint (MsgTotal 0 (length results))]) /\
  existsb touches_fs
    (EvPrint MsgSummaryHeader :: status_lines results
       ++ [EvPrint (MsgTotal 0 (length results))]) = false.
Proof.
  split; [exact (summarize_no_success env args results h Hnone)|].
  simpl. rewrite existsb_app. simpl. rewrite orb_false_r.
  unfold status_lines. induction results as [|i results IH];
    [reflexivity|].
  simpl. apply IH. unfold count_true in *. simpl in Hnone.
  destruct (snd i); [discriminate Hnone|exact Hnone].
Qed.

Lemma summary_without_success_witness :
  fst (summarize env_unlistable args_one [("ubuntu20.04", false)] [])
  = SysExit 1%Z.
Proof.
  rewrite (proj1 (summary_without_success env_unlistable args_one
                    [("ubuntu20.04", false)] [] eq_refl)).
  reflexivity.
Defined.




(** ** Further properties of [main] *)

Lemma parses_nonempty env raw args :
  parses env raw args -> args_platforms args <> [].
Proof.
  unfold parses, parse_args, bind.
  destruct (raw_platforms raw) as [values|].
  - rewrite parse_platforms_given.
    destruct values as [|v vs]; [intros H; discriminate H|].
    destruct (_ && _); intros H; [|discriminate H].
    injection H as <-. discriminate.
  - intros H. injection H as <-. discriminate.
Qed.

(** X9: for an accepted command line the platforms to build are never
    empty, are either the list given or the registry keys, and are all
    keys of the registry, so that the lookups [PLATFORM_CONFIGS[platform]]
    of lines 190 and 203 never raise [KeyError]. *)
Theorem selection_is_valid env raw args (Hparse : parses env raw args) :
  let ps := select_platforms (args_platforms args) in
  ps <> [] /\
  (ps = args_platforms args \/ ps = keys PLATFORM_CONFIGS) /\
  forall p h, In p ps -> exists config, config_of p h = (Val config, h).
Proof.
  intros ps. subst ps.
  destruct (parses_platforms env raw args Hparse) as [Hvalid _].
  pose proof (parses_nonempty env raw args Hparse) as Hne.
  pose proof (select_platforms_keys _ Hvalid) as Hkeys.
  split; [|split].
  - unfold select_platforms.
    destruct (str_in "all" (args_platforms args)); [discriminate|exact Hne].
  - unfold select_platforms.
    destruct (str_in "all" (args_platforms args)); auto.
  - intros p h Hp. rewrite Forall_forall in Hkeys.
    destruct (key_has_config p (Hkeys p Hp)) as [c Hc].
    exists c. unfold config_of. now rewrite Hc.
Qed.

Lemma selection_is_valid_witness :
  select_platforms (args_platforms args_twice) <> [].
Proof.
  apply (selection_is_valid env_ok raw_twice args_twice). reflexivity.
Defined.

(** X10: an exception of the probe that is neither [CalledProcessError]
    nor [FileNotFoundError] is not caught by line 173: it leaves [main]
    right after the probe, without the message of line 174, and the exit
    code is 1. *)
Theorem probe_other_exception_escapes env raw args e
    (Hparse : parses env raw args)
    (Hprobe : env_exec env [] probe_argv = inl e)
    (Hother : probe_caught e = false) :
  main env raw [] = (Raise e, [EvExec probe_argv]) /\
  exit_code (fst (main env raw [])) = 1%Z.
Proof.
  assert (H : main env raw [] = (Raise e, [EvExec probe_argv])).
  { unfold main. rewrite (bind_val _ _ _ _ _ Hparse).
    unfold check_docker, subprocess_run_check, try_except, bind, ask.
    rewrite Hprobe. cbn. now rewrite Hother. }
  rewrite H. split; reflexivity.
Qed.

Lemma probe_other_exception_escapes_witness :
  main env_docker_denied raw_default []
  = (Raise PermissionError, [EvExec probe_argv]).
Proof.
  apply (probe_other_exception_escapes env_docker_denied raw_default
           args_default PermissionError); reflexivity.
Defined.

(** X11: in normal mode the output root is created before any platform is
    attempted; when that [mkdir] (line 198) raises, the exception leaves
    [main] at once: no platform is attempted, no summary is printed, and
    the exit code is 1. *)
Theorem output_root_failure_is_fatal env raw args e
    (Hparse : parses env raw args) (Hnormal : raw_dry_run raw = false)
    (Hprobe : probe_succeeds env)
    (Hmkdir : env_mkdir env (prelude args) (args_output_dir args) = inl e) :
  main env raw [] = (Raise e, prelude args ++ [EvMkdir (args_output_dir args)]) /\
  attempted (snd (main env raw [])) = [] /\
  exit_code (fst (main env raw [])) = 1%Z.
Proof.
  assert (H : main env raw []
              = (Raise e, prelude args ++ [EvMkdir (args_output_dir args)])).
  { rewrite (main_normal_mode env raw args Hparse Hnormal Hprobe).
    unfold bind at 1, mkdir, ask. fold (prelude args). now rewrite Hmkdir. }
  rewrite H. repeat split.
Qed.

Lemma output_root_failure_is_fatal_witness :
  attempted (snd (main env_root_denied raw_default [])) = [] /\
  exit_code (fst (main env_root_denied raw_default [])) = 1%Z.
Proof.
  apply (output_root_failure_is_fatal env_root_denied raw_default
           args_default PermissionError); reflexivity.
Defined.

Lemma build_trace_shells env p cfg ws out h :
  mkdir_answer env p out h = inr tt ->
  shells (build_trace env p cfg ws out h)
  = [docker_command cfg ws (path_join out p)].
Proof.
  intros Hm. unfold build_trace. rewrite Hm.
  destruct (env_stdout_encodes env); [|reflexivity].
  destruct (spawn_answer env p cfg ws out h) as [e|rc]; [reflexivity|].
  destruct (rc =? 0)%Z; [|reflexivity].
  destruct (listing_answer env p cfg ws out h) as [e|[|a l]]; reflexivity.
Qed.

(** X12: when no [mkdir] raises and standard output can encode the
    markers of the lines the builds print, the loop of lines 202-205 spawns
    exactly one container per selected platform, one after the other in
    the order of the selection, each with the command of its platform,
    whatever the containers return; a platform selected twice is built
    twice. *)
Theorem one_container_per_selection env args ps
    (Hmkdir : mkdir_never_raises env)
    (Hprint : env_stdout_encodes env = true)
    (Hkeys : Forall (fun p => In p (keys PLATFORM_CONFIGS)) ps) :
  forall results h,
    shells (snd (build_loop env args ps results h))
    = shells h ++ map (command_of args) ps.
Proof.
  induction Hkeys as [|p ps Hp _ IH]; intros results h.
  - simpl. now rewrite app_nil_r.
  - destruct (key_has_config p Hp) as [c Hc].
    cbn [build_loop map]. unfold bind at 1, config_of, command_of.
    rewrite Hc. unfold ret, bind.
    pose proof (build_for_platform_trace env p c (args_workspace args)
                  (args_output_dir args) h) as Ht.
    destruct (build_for_platform_returns env p c (args_workspace args)
                (args_output_dir args) h (Hmkdir _ _) Hprint) as [b Hb].
    destruct (build_for_platform env p c _ _ h) as [o h1].
    cbn [fst snd] in Ht, Hb. subst o h1.
    rewrite IH, shells_app, build_trace_shells by apply Hmkdir.
    now rewrite <- app_assoc.
Qed.

Lemma one_container_per_selection_witness :
  shells (snd (build_loop env_flaky args_twice
                 ["ubuntu20.04"; "ubuntu20.04"] [] (loop_start args_twice)))
  = [ command_of args_twice "ubuntu20.04";
      command_of args_twice "ubuntu20.04" ].
Proof.
  apply (one_container_per_selection env_flaky args_twice
           ["ubuntu20.04"; "ubuntu20.04"]).
  - intros h p. reflexivity.
  - reflexivity.
  - apply Forall_cons; [simpl; auto|].
    apply Forall_cons; [simpl; auto|apply Forall_nil].
Defined.












Lemma check_docker_outcome env h :
  fst (check_docker env h) = Val tt \/
  (exists e, fst (check_docker env h) = Raise e) \/
  fst (check_docker env h) = SysExit 1%Z.
Proof.
  unfold check_docker, subprocess_run_check, try_except, bind, ask, ret,
    raise, print_marked, sys_exit.
  destruct (env_exec env h probe_argv) as [e|rc]; cbn.
  - destruct (probe_caught e); cbn; [|right; left; now exists e].
    destruct (env_stdout_encodes env); cbn; [auto|].
    right. left. now eexists.
  - destruct (rc =? 0)%Z; cbn; [auto|].
    destruct (env_stdout_encodes env); cbn; [auto|].
    right. left. now eexists.
Qed.

Lemma dry_run_loop_outcome (ps : list string) :
  forall h, fst (dry_run_loop ps h) = Val tt \/
            exists e, fst (dry_run_loop ps h) = Raise e.
Proof.
  induction ps as [|p ps IH]; intros h; [now left|].
  cbn [dry_run_loop]. unfold bind, config_of, print, ret, raise.
  destruct (dict_get PLATFORM_CONFIGS p) as [c|]; cbn.
  - apply IH.
  - right. eexists. reflexivity.
Qed.

Lemma build_loop_no_exit env args ps :
  forall results h n, fst (build_loop env args ps results h) <> SysExit n.
Proof.
  induction ps as [|p ps IH]; intros results h n; [discriminate|].
  cbn [build_loop]. unfold bind at 1, config_of, ret, raise.
  destruct (dict_get PLATFORM_CONFIGS p) as [c|]; [|discriminate].
  unfold bind.
  pose proof (build_for_platform_no_exit env p c (args_workspace args)
                (args_output_dir args) h) as Hexit.
  destruct (build_for_platform env p c _ _ h) as [[b|e|m] h1];
    cbn [fst] in *.
  - apply IH.
  - discriminate.
  - exfalso. exact (Hexit m eq_refl).
Qed.

(** X15: for every command line made of the four options, each used with
    the values it takes, and for every environment, the exit code of the
    process is 0, 1 or 2, and it is 2 only when the parser rejected the
    values of [--platforms]. *)
Theorem exit_code_range env raw :
  (exit_code (fst (main env raw [])) = 0%Z \/
   exit_code (fst (main env raw [])) = 1%Z \/
   exit_code (fst (main env raw [])) = 2%Z) /\
  (exit_code (fst (main env raw [])) = 2%Z ->
   fst (parse_platforms (raw_platforms raw) []) = SysExit 2%Z).
Proof.
  destruct (parse_args_cases env raw []) as [(args & Hp & _ & _)|Hp].
  2:{ unfold main. rewrite (bind_exit _ _ _ _ _ Hp). cbn.
      split; [tauto|]. intros _. revert Hp. unfold parse_args, bind.
      destruct (parse_platforms (raw_platforms raw) []) as [[v|e|n] h'];
        intros Hp; try discriminate Hp.
      injection Hp as -> _. reflexivity. }
  assert (H : exit_code (fst (main env raw [])) = 0%Z \/
              exit_code (fst (main env raw [])) = 1%Z).
  { destruct (main env raw []) as [o hf] eqn:E. cbn [fst].
    revert E. unfold main. rewrite (bind_val _ _ _ _ _ Hp).
    unfold bind at 1.
    pose proof (check_docker_outcome env []) as Hc.
    destruct (check_docker env []) as [[[]|e|n] h1]; cbn [fst] in Hc.
    - unfold bind, print. cbv beta iota.
      destruct (args_dry_run args).
      + match goal with
        | |- context [dry_run_loop ?ps ?h0] =>
            pose proof (dry_run_loop_outcome ps h0) as Hd;
            destruct (dry_run_loop ps h0) as [od hd]
        end.
        cbn [fst] in Hd. intros E. injection E as <- _.
        destruct Hd as [->|[e ->]]; cbn; auto.
      + unfold mkdir, ask.
        destruct (env_mkdir env _ _) as [e|[]]; cbv beta iota.
        { intros E. injection E as <- _. cbn. auto. }
        match goal with
        | |- context [build_loop env args ?ps [] ?h0] =>
            pose proof (build_loop_no_exit env args ps [] h0) as Hl;
            destruct (build_loop env args ps [] h0) as [[results|e|n] h2]
        end; cbn [fst] in Hl.
        * pose proof (summarize_outcome env args results h2) as Hs.
          destruct (summarize env args results h2) as [os hs].
          cbn [fst] in Hs. intros E. injection E as <- _.
          destruct Hs as [[e ->]| ->]; [cbn; auto|].
          destruct (count_true results <? length results)%nat; cbn; auto.
        * intros E. injection E as <- _. cbn. auto.
        * exfalso. exact (Hl n eq_refl).
    - intros E. injection E as <- _. cbn. auto.
    - intros E. injection E as <- _.
      destruct Hc as [Hc|[[e Hc]|Hc]]; try discriminate Hc.
      injection Hc as ->. cbn. auto. }
  split; [tauto|].
  intros H2. destruct H as [H|H]; congruence.
Qed.





(** ** Sample runs *)

Example main_all_ok : exit_code (fst (main env_ok raw_default [])) = 0%Z.
Proof. reflexivity. Qed.

Example main_all_attempted :
  attempted (snd (main env_ok raw_default [])) = keys PLATFORM_CONFIGS.
Proof. reflexivity. Qed.

Example main_twice_flaky :
  fst (main env_flaky raw_twice []) = Val tt /\
  build_returns env_flaky args_twice ["ubuntu20.04"; "ubuntu20.04"]
    (loop_start args_twice) = [Val false; Val true].
Proof. split; reflexivity. Qed.

Example path_join_normal_forms :
  path_join "." "ubuntu20.04" = "ubuntu20.04" /\
  path_join "/" "ubuntu20.04" = "/ubuntu20.04" /\
  path_join "multi_platform_builds" "ubuntu20.04"
  = "multi_platform_builds/ubuntu20.04".
Proof. repeat split. Qed.

Example main_ascii_stdout :
  fst (main env_ascii raw_one []) = Raise UnicodeEncodeError /\
  exit_code (fst (main env_ascii raw_one [])) = 1%Z.
Proof. split; reflexivity. Qed.
